(** * schej.it server: calendar normalisation, provider factory, event ids

    A shallow embedding of the Go code of

    - [server/routes/user.go]            ([getCalendar]),
    - [server/services/calendar/types.go] ([GetCalendarProvider]),
    - [server/models/event.go]           ([Event.GetId]),
    - [server/utils/utils.go]            ([GetUserId]),

    together with the few functions of Go's [time] package and of the MongoDB
    driver's [bson/primitive] package that this code calls.

    Conventions.  Go's [int64] is a [Z] with the wrap-around written out
    ([wrap64]); a Go slice is an [option (list A)], [None] being the nil
    slice; a Go pointer that may be nil is an [option]; a panic is an explicit
    outcome. *)

From Stdlib Require Import ZArith List String Ascii Bool Lia.
From Stdlib.Strings Require Import Byte.
Import ListNotations.

Local Open Scope string_scope.
Local Open Scope list_scope.
Local Open Scope Z_scope.

(* ------------------------------------------------------------------ *)
(** ** Go values *)

Module Go.

(** Two's complement wrap-around of a 64-bit signed integer. *)
Definition wrap64 (z : Z) : Z := (z + 2 ^ 63) mod 2 ^ 64 - 2 ^ 63.

Definition minInt64 : Z := - 2 ^ 63.
Definition maxInt64 : Z := 2 ^ 63 - 1.

(** A slice: [None] is the nil slice, [Some l] a non-nil slice holding [l].
    The two differ once encoded to JSON ([null] against [[]]). *)
Definition slice (A : Type) : Type := option (list A).

(** [make([]A, 0)]: a non-nil slice of length 0. *)
Definition make0 {A : Type} : slice A := Some [].

(** [append(s, x)]. *)
Definition append {A : Type} (s : slice A) (x : A) : slice A :=
  match s with
  | None => Some [x]
  | Some l => Some (l ++ [x])
  end.

(** The elements a [for _, x := range s] visits. *)
Definition elements {A : Type} (s : slice A) : list A :=
  match s with
  | None => []
  | Some l => l
  end.

(** What a call does: it returns a value, or it panics. *)
Inductive result (A : Type) : Type :=
| Returned (a : A)
| Panicked.
Arguments Returned {A} a.
Arguments Panicked {A}.

End Go.

(* ------------------------------------------------------------------ *)
(** ** Package [time]

    A [Time] decoded from text carries no monotonic clock reading, so
    [Before] and [After] compare the wall-clock instant: the seconds, then
    the nanoseconds within the second.  [sec] counts from the Unix epoch.
    The location of a [Time] takes no part in any function below and is
    left out. *)

Module time.

Record Time : Type := mkTime { sec : Z; nsec : Z }.

(** [t.Before(u)]: [ts < us || ts == us && t.nsec() < u.nsec()]. *)
Definition Before (t u : Time) : bool :=
  (sec t <? sec u) || ((sec t =? sec u) && (nsec t <? nsec u)).

(** [t.After(u)]: [ts > us || ts == us && t.nsec() > u.nsec()]. *)
Definition After (t u : Time) : bool :=
  (sec t >? sec u) || ((sec t =? sec u) && (nsec t >? nsec u)).

(** [t.Unix()] and [t.Nanosecond()]. *)
Definition Unix_of (t : Time) : Z := sec t.
Definition Nanosecond (t : Time) : Z := nsec t.

(** [time.Unix(sec, nsec)]: an [nsec] outside [0, 1e9) is carried into the
    seconds.  Go's [/] truncates towards zero ([Z.quot]). *)
Definition Unix (s n : Z) : Time :=
  if (n <? 0) || (n >=? 1000000000) then
    let q := Z.quot n 1000000000 in
    let s1 := Go.wrap64 (s + q) in
    let n1 := Go.wrap64 (n - Go.wrap64 (q * 1000000000)) in
    if n1 <? 0 then mkTime (Go.wrap64 (s1 - 1)) (n1 + 1000000000)
    else mkTime s1 n1
  else mkTime s n.

(** The order of instants, as a proposition. *)
Definition instant_lt (t u : Time) : Prop :=
  sec t < sec u \/ (sec t = sec u /\ nsec t < nsec u).

Definition instant_le (t u : Time) : Prop :=
  instant_lt t u \/ (sec t = sec u /\ nsec t = nsec u).

(** A well-formed [Time]: the nanoseconds lie within one second. *)
Definition valid (t : Time) : Prop := 0 <= nsec t < 1000000000.

(** The instant in nanoseconds since the epoch. *)
Definition nanos (t : Time) : Z := sec t * 1000000000 + nsec t.

End time.

(* ------------------------------------------------------------------ *)
(** ** Package [bson/primitive] (MongoDB driver) *)

Module primitive.

(** [type DateTime int64]: milliseconds since the Unix epoch. *)
Definition DateTime : Type := Z.

(** [NewDateTimeFromTime(t)]:
    [DateTime(t.Unix()*1e3 + int64(t.Nanosecond())/1e6)]. *)
Definition NewDateTimeFromTime (t : time.Time) : DateTime :=
  Go.wrap64 (time.Unix_of t * 1000 + Z.quot (time.Nanosecond t) 1000000).

(** [d.Time()]: [time.Unix(int64(d)/1000, int64(d)%1000*1000000)]. *)
Definition DateTime_Time (d : DateTime) : time.Time :=
  time.Unix (Z.quot d 1000) (Z.rem d 1000 * 1000000).

(** The seconds for which [t.Unix()*1e3 + 999] stays within [int64]. *)
Definition fits (t : time.Time) : Prop :=
  -9223372036854775 <= time.sec t <= 9223372036854774.

(** The instants that a [DateTime] holds exactly: well-formed, within range
    and on a whole millisecond. *)
Definition inRange (t : time.Time) : Prop := time.valid t /\ fits t.

Definition wholeMillis (t : time.Time) : Prop := time.nsec t mod 1000000 = 0.

(** [type ObjectID [12]byte]. *)
Definition ObjectID : Type := list byte.

(** [encoding/hex]: [hextable = "0123456789abcdef"]. *)
Definition hextable : string := "0123456789abcdef".

Definition hexdigit (n : N) : ascii :=
  match String.get (N.to_nat n) hextable with
  | Some c => c
  | None => "0"%char
  end.

(** [hex.Encode]: [dst[j] = hextable[v>>4]; dst[j+1] = hextable[v&0x0f]]. *)
Fixpoint hexEncode (src : list byte) : string :=
  match src with
  | [] => EmptyString
  | v :: rest =>
      String (hexdigit (N.shiftr (Byte.to_N v) 4))
        (String (hexdigit (N.land (Byte.to_N v) 15)) (hexEncode rest))
  end.

(** [id.Hex()]. *)
Definition Hex (id : ObjectID) : string := hexEncode id.

(** [encoding/hex], [fromHexChar]: the value of a hexadecimal digit, in
    either case; [None] for any other character. *)
Definition fromHexChar (c : ascii) : option N :=
  let n := N_of_ascii c in
  if ((48 <=? n) && (n <=? 57))%N then Some (n - 48)%N
  else if ((97 <=? n) && (n <=? 102))%N then Some (n - 97 + 10)%N
  else if ((65 <=? n) && (n <=? 70))%N then Some (n - 65 + 10)%N
  else None.

(** The byte [(a << 4) | b] of two digit values. *)
Definition byteOfDigits (a b : N) : byte :=
  match Byte.of_N (N.lor (N.shiftl a 4) b) with
  | Some v => v
  | None => x00
  end.

(** [hex.DecodeString]: two digits per byte; [None] is the error, for a
    character that is no digit or for an odd length. *)
Fixpoint hexDecode (s : string) : option (list byte) :=
  match s with
  | EmptyString => Some []
  | String _ EmptyString => None
  | String p (String q rest) =>
      match fromHexChar p, fromHexChar q with
      | Some a, Some b =>
          match hexDecode rest with
          | Some bytes => Some (byteOfDigits a b :: bytes)
          | None => None
          end
      | _, _ => None
      end
  end.

(** [ObjectIDFromHex(s)]: [len(s) != 24] is an error, then the bytes of
    [hex.DecodeString(s)]. *)
Definition ObjectIDFromHex (s : string) : option ObjectID :=
  if Nat.eqb (String.length s) 24 then hexDecode s else None.

End primitive.

(* ------------------------------------------------------------------ *)
(** ** Package [models] *)

Module models.

(** Modelled from the spec: the declaration of [models.CalendarEvent] is
    not among the sources.  Its fields are the three of the spec's
    canonical event, [{summary, startInstant, endInstant}], named as the
    struct literal in [getCalendar] names them. *)
Record CalendarEvent : Type := mkCalendarEvent
  { Summary : string;
    StartDate : primitive.DateTime;
EndDate : primitive.DateTime }.

(** [type EventType string] and its constants. *)
Definition EventType : Type := string.
Definition SPECIFIC_DATES : EventType := "specific_dates".
Definition DOW : EventType := "dow".
Definition GROUP : EventType := "group".

(** [type Event struct]: the identifying fields, the name, the dates and
    the type; [ShortId *string] is an [option].  The remaining fields of
    the struct are not read by [GetId]. *)
Record Event : Type := mkEvent
  { Id : primitive.ObjectID;
    ShortId : option string;
    OwnerId : primitive.ObjectID;
    Name : string;
    Description : option string;
    Dates : Go.slice primitive.DateTime;
    Type_ : EventType }.

(** [func (e *Event) GetId() string], on a receiver that is not nil. *)
Definition GetId (e : Event) : string :=
  match ShortId e with
  | Some shortId => shortId
  | None => primitive.Hex (Id e)
  end.

(** Modelled from the spec: the declarations of [models.CalendarType], of
    its constants and of [models.CalendarAccount] are not among the
    sources.  The provider type is one of a closed set of names, here a Go
    string type with one constant per provider that the factory knows;
    the account holds one credential bundle per provider, each behind a
    pointer that is nil when the bundle is absent. *)
Definition CalendarType : Type := string.
Definition GoogleCalendarType : CalendarType := "google".
Definition AppleCalendarType : CalendarType := "apple".

Section CalendarAccount.
Variables GoogleCalendarAuth_t AppleCalendarAuth_t : Type.

Record CalendarAccount : Type := mkCalendarAccount
  { CalendarType_of : CalendarType;
    GoogleCalendarAuth : option GoogleCalendarAuth_t;
    AppleCalendarAuth : option AppleCalendarAuth_t }.
End CalendarAccount.

Arguments mkCalendarAccount {_ _} _ _ _.
Arguments CalendarType_of {_ _} _.
Arguments GoogleCalendarAuth {_ _} _.
Arguments AppleCalendarAuth {_ _} _.

End models.

(* ------------------------------------------------------------------ *)
(** ** Package [utils] *)

Module utils.

(** A value of type [interface{}] kept in a session: a string, or a value
    of another type.  The nil interface value is [None]. *)
Inductive any : Type :=
| anyString (s : string)
| anyOther.

(** [sessions.Session], by its method [Get]. *)
Record Session : Type := mkSession { Get : string -> option any }.

(** [func GetUserId(session sessions.Session) primitive.ObjectID]: the type
    assertion [.(string)] panics on a value that is no string, the function
    panics on an error of [ObjectIDFromHex]. *)
Definition GetUserId (session : Session) : Go.result primitive.ObjectID :=
  match Get session "userId" with
  | Some (anyString s) =>
      match primitive.ObjectIDFromHex s with
      | Some objectID => Go.Returned objectID
      | None => Go.Panicked
      end
  | Some anyOther => Go.Panicked
  | None => Go.Panicked
  end.

End utils.

(* ------------------------------------------------------------------ *)
(** ** Package [services/calendar] *)

Module calendar.

Section Provider.
(** The credential bundles [models.GoogleCalendarAuth] and
    [models.AppleCalendarAuth], whose declarations are not among the
    sources, are parameters. *)
Variables GoogleCalendarAuth_t AppleCalendarAuth_t : Type.

(** The adapters [GoogleCalendar] and [AppleCalendar], as the factory
    builds them: a struct around the credential bundle. *)
Record GoogleCalendar : Type := mkGoogleCalendar
  { GoogleCalendar_Auth : GoogleCalendarAuth_t }.
Record AppleCalendar : Type := mkAppleCalendar
  { AppleCalendar_Auth : AppleCalendarAuth_t }.

(** A non-nil value of the interface [CalendarProvider]: a pointer to one
    of the adapters.  The nil interface value is [None]. *)
Inductive CalendarProvider : Type :=
| GoogleProvider (g : GoogleCalendar)
| AppleProvider (a : AppleCalendar).

(** [func GetCalendarProvider(calendarAccount models.CalendarAccount)
    CalendarProvider].  The function has one result, the interface
    value; [*calendarAccount.GoogleCalendarAuth] dereferences a pointer
    and panics when it is nil; after the [switch], [return nil]. *)
Definition GetCalendarProvider
    (calendarAccount : models.CalendarAccount GoogleCalendarAuth_t AppleCalendarAuth_t)
    : Go.result (option CalendarProvider) :=
  if String.eqb (models.CalendarType_of calendarAccount) models.GoogleCalendarType then
    match models.GoogleCalendarAuth calendarAccount with
    | Some auth => Go.Returned (Some (GoogleProvider (mkGoogleCalendar auth)))
    | None => Go.Panicked
    end
  else if String.eqb (models.CalendarType_of calendarAccount) models.AppleCalendarType then
    match models.AppleCalendarAuth calendarAccount with
    | Some auth => Go.Returned (Some (AppleProvider (mkAppleCalendar auth)))
    | None => Go.Panicked
    end
  else Go.Returned None.

(** The provider types the factory has a case for. *)
Definition supported (ty : models.CalendarType) : Prop :=
  ty = models.GoogleCalendarType \/ ty = models.AppleCalendarType.
End Provider.

Arguments GoogleProvider {_ _} g.
Arguments AppleProvider {_ _} a.
Arguments mkGoogleCalendar {_} _.
Arguments mkAppleCalendar {_} _.
Arguments GetCalendarProvider {_ _} calendarAccount.

End calendar.

(* ------------------------------------------------------------------ *)
(** ** Package [routes]: [getCalendar] *)

Module routes.

(** The query parameters that [c.Bind] fills in. *)
Record payload_t : Type := mkPayload
  { TimeMin : time.Time;
    TimeMax : time.Time }.

(** The structs the handler declares to parse the provider's response. *)
Record TimeInfo : Type := mkTimeInfo { DateTime : time.Time }.

Record Item : Type := mkItem
  { Item_Summary : string;
    Start : TimeInfo;
    End_ : TimeInfo }.

(** [Error interface{}] is nil unless the response has an [error] member,
    kept here as its JSON text. *)
Record Response : Type := mkResponse
  { Items : Go.slice Item;
    Error : option string }.

(** *** The response body before decoding

    A member of the body either decodes to a value of its field's type or
    does not (a [dateTime] that is not an RFC 3339 time, a [summary] that is
    not a JSON string): [json.Decoder.Decode] then returns an error. *)
Inductive member (A : Type) : Type :=
| Decodes (a : A)
| Malformed (text : string).
Arguments Decodes {A} a.
Arguments Malformed {A} text.

Record rawItem : Type := mkRawItem
  { raw_summary : member string;
    raw_start : member time.Time;
    raw_end : member time.Time }.

Record rawBody : Type := mkRawBody
  { raw_items : option (list rawItem);
    raw_error : option string }.

Definition decodeMember {A : Type} (m : member A) : option A :=
  match m with
  | Decodes a => Some a
  | Malformed _ => None
  end.

Definition decodeItem (r : rawItem) : option Item :=
  match decodeMember (raw_summary r), decodeMember (raw_start r), decodeMember (raw_end r) with
  | Some s, Some b, Some e => Some (mkItem s (mkTimeInfo b) (mkTimeInfo e))
  | _, _, _ => None
  end.

(** One [Decode] call fills the whole [Response]: it gives the items only
    when every one of them decodes. *)
Fixpoint decodeItems (rs : list rawItem) : option (list Item) :=
  match rs with
  | [] => Some []
  | r :: rest =>
      match decodeItem r, decodeItems rest with
      | Some it, Some its => Some (it :: its)
      | _, _ => None
      end
  end.

(** [json.NewDecoder(resp.Body).Decode(&res)]; [None] is [err != nil]. *)
Definition Decode (b : rawBody) : option Response :=
  match raw_items b with
  | None => Some (mkResponse None (raw_error b))
  | Some rs =>
      match decodeItems rs with
      | Some its => Some (mkResponse (Some its) (raw_error b))
      | None => None
      end
  end.

Definition wellFormed (r : rawItem) : Prop := exists it, decodeItem r = Some it.
Definition malformed (r : rawItem) : Prop := decodeItem r = None.

(** What [http.DefaultClient.Do(req)] brought back. *)
Inductive fetched : Type :=
| TransportError
| BodyNotJSON
| Body (b : rawBody).

(** *** The filter loop *)

(** The condition of the [if] in the loop. *)
Definition inWindow (payload : payload_t) (item : Item) : bool :=
  time.Before (TimeMin payload) (DateTime (Start item))
  && time.After (TimeMax payload) (DateTime (End_ item)).

(** The struct literal that the loop appends. *)
Definition restructure (item : Item) : models.CalendarEvent :=
  models.mkCalendarEvent
    (Item_Summary item)
    (primitive.NewDateTimeFromTime (DateTime (Start item)))
    (primitive.NewDateTimeFromTime (DateTime (End_ item))).

(** One iteration of [for _, item := range res.Items]. *)
Definition loopBody (payload : payload_t)
    (calendarEvents : Go.slice models.CalendarEvent) (item : Item)
    : Go.slice models.CalendarEvent :=
  if inWindow payload item
  then Go.append calendarEvents (restructure item)
  else calendarEvents.

(** [calendarEvents := make([]models.CalendarEvent, 0)] followed by the
    loop. *)
Definition formatResponse (payload : payload_t) (items : Go.slice Item)
    : Go.slice models.CalendarEvent :=
  fold_left (loopBody payload) (Go.elements items) Go.make0.

(** The same loop, one iteration at a time: the state is the items still to
    visit and the slice built so far. *)
Record loopState : Type := mkLoop
  { pending : list Item;
    calendarEvents : Go.slice models.CalendarEvent }.

Inductive loopStep (payload : payload_t) : loopState -> loopState -> Prop :=
| step_keep : forall item rest acc,
    inWindow payload item = true ->
    loopStep payload (mkLoop (item :: rest) acc)
                     (mkLoop rest (Go.append acc (restructure item)))
| step_skip : forall item rest acc,
    inWindow payload item = false ->
    loopStep payload (mkLoop (item :: rest) acc) (mkLoop rest acc).

Inductive loopRuns (payload : payload_t)
    : loopState -> Go.slice models.CalendarEvent -> Prop :=
| runs_done : forall acc, loopRuns payload (mkLoop [] acc) acc
| runs_step : forall s s' out,
    loopStep payload s s' -> loopRuns payload s' out -> loopRuns payload s out.

Definition loopStart (items : Go.slice Item) : loopState :=
  mkLoop (Go.elements items) Go.make0.

(** *** The handler *)

(** What a call of the handler ends in. *)
Inductive outcome : Type :=
| BindFailed
| Panics
| JSON_InternalServerError (res : Response)
| JSON_OK (calendarEvents : Go.slice models.CalendarEvent).

(** [func getCalendar(c *gin.Context)].  [bound] is what [c.Bind(&payload)]
    gave ([None] when it returned an error), [resp] what the request to the
    provider brought back.  The token refresh and the request's construction
    write nothing that the rest of the handler reads. *)
Definition getCalendar (bound : option payload_t) (resp : fetched) : outcome :=
  match bound with
  | None => BindFailed
  | Some payload =>
      match resp with
      | TransportError => Panics
      | BodyNotJSON => Panics
      | Body b =>
          match Decode b with
          | None => Panics
          | Some res =>
              match Error res with
              | Some _ => JSON_InternalServerError res
              | None => JSON_OK (formatResponse payload (Items res))
              end
          end
      end
  end.

(** Conditions on the instants of an item, used to state what the
    conversion to milliseconds keeps. *)
Definition itemInRange (item : Item) : Prop :=
  primitive.inRange (DateTime (Start item)) /\ primitive.inRange (DateTime (End_ item)).

Definition itemWholeMillis (item : Item) : Prop :=
  primitive.wholeMillis (DateTime (Start item))
  /\ primitive.wholeMillis (DateTime (End_ item)).

(** The end is at least one millisecond after the start. *)
Definition itemLasts (item : Item) : Prop :=
  time.nanos (DateTime (Start item)) + 1000000 <= time.nanos (DateTime (End_ item)).

(** The way back, for the round trip of the specification (the handler
    itself only goes from items to events): a canonical event re-encoded as
    a provider item, its instants read with [DateTime.Time]. *)
Definition reencode (ev : models.CalendarEvent) : Item :=
  mkItem (models.Summary ev)
    (mkTimeInfo (primitive.DateTime_Time (models.StartDate ev)))
    (mkTimeInfo (primitive.DateTime_Time (models.EndDate ev))).

End routes.

(* ------------------------------------------------------------------ *)
(** ** Sample inputs *)

Import routes.

(** A degenerate window and two ordered items. *)
Definition degenerate_payload : payload_t :=
  mkPayload (time.mkTime 100 0) (time.mkTime 100 0).

Definition ordered_items : Go.slice Item :=
  Some [ mkItem "standup" (mkTimeInfo (time.mkTime 10 0)) (mkTimeInfo (time.mkTime 20 0));
         mkItem "review" (mkTimeInfo (time.mkTime 150 0)) (mkTimeInfo (time.mkTime 160 500)) ].

(** A window and an item inside it whose end precedes its start. *)
Definition day_payload : payload_t :=
  mkPayload (time.mkTime 0 0) (time.mkTime 86400 0).

Definition reversed_item : Item :=
  mkItem "reversed" (mkTimeInfo (time.mkTime 7200 0)) (mkTimeInfo (time.mkTime 3600 0)).

(** Two items inside the window, [meeting] on whole milliseconds, [meeting_ns]
    starting one nanosecond later. *)
Definition meeting : Item :=
  mkItem "meeting" (mkTimeInfo (time.mkTime 3600 250000000))
                   (mkTimeInfo (time.mkTime 7200 0)).

Definition meeting_ns : Item :=
  mkItem "meeting" (mkTimeInfo (time.mkTime 3600 250000001))
                   (mkTimeInfo (time.mkTime 7200 0)).

(** A response body with one item that decodes and one whose [dateTime]
    is not a time. *)
Definition good_raw : rawItem :=
  mkRawItem (Decodes "meeting") (Decodes (time.mkTime 3600 0)) (Decodes (time.mkTime 7200 0)).

Definition bad_raw : rawItem :=
  mkRawItem (Decodes "lunch") (Malformed "yesterday") (Decodes (time.mkTime 7200 0)).

Definition mixed_body : rawBody := mkRawBody (Some [good_raw; bad_raw]) None.

(** The provider's error response: an [error] member and no items. *)
Definition error_body : rawBody := mkRawBody None (Some "{code: 401}").

(** A response whose only item ends after the window. *)
Definition late_raw : rawItem :=
  mkRawItem (Decodes "party") (Decodes (time.mkTime 80000 0)) (Decodes (time.mkTime 90000 0)).

Definition late_body : rawBody := mkRawBody (Some [late_raw]) None.

(** Accounts, with strings for the credential bundles. *)
Definition outlook_account : models.CalendarAccount string string :=
  models.mkCalendarAccount "outlook" None None.

Definition google_account : models.CalendarAccount string string :=
  models.mkCalendarAccount models.GoogleCalendarType (Some "google-token") None.

Definition apple_account : models.CalendarAccount string string :=
  models.mkCalendarAccount models.AppleCalendarType None (Some "apple-password").

(** Events with and without a short id. *)
Definition sample_id : primitive.ObjectID :=
  [x65; xf0; xa1; xb2; xc3; xd4; xe5; xf6; x01; x02; x03; x0f].

Definition short_event : models.Event :=
  models.mkEvent sample_id (Some "aB3xZ") sample_id "Standup" None None models.DOW.

Definition plain_event : models.Event :=
  models.mkEvent sample_id None sample_id "Standup" None None models.DOW.

(** An item that ends after the window closes, and one that starts as the
    window opens. *)
Definition party : Item :=
  mkItem "party" (mkTimeInfo (time.mkTime 80000 0)) (mkTimeInfo (time.mkTime 90000 0)).

Definition breakfast : Item :=
  mkItem "breakfast" (mkTimeInfo (time.mkTime 0 0)) (mkTimeInfo (time.mkTime 1800 0)).

(** A window within [day_payload] that still holds [meeting]. *)
Definition morning_payload : payload_t :=
  mkPayload (time.mkTime 3000 0) (time.mkTime 10000 0).

(** A session that holds the hexadecimal form of [sample_id] under
    [userId], with an upper-case digit. *)
Definition user_session : utils.Session :=
  utils.mkSession (fun key =>
    if String.eqb key "userId" then Some (utils.anyString "65F0a1b2c3d4e5f60102030f")
    else None).

(** [plain_event] under another name, and the item of [meeting] under
    another summary. *)
Definition renamed_event : models.Event :=
  models.mkEvent sample_id None sample_id "Retro" None None models.GROUP.

Definition instant_item : Item :=
  mkItem "instant" (mkTimeInfo (time.mkTime 3600 250000000))
                   (mkTimeInfo (time.mkTime 3600 250999999)).

(* ================================================================== *)
(** * Properties *)

Create HintDb schej discriminated.

(** Turns the boolean comparisons of [time.Before] and [time.After] into
    propositions over [Z]. *)
Ltac unfold_instants :=
  unfold inWindow, time.Before, time.After, time.instant_le, time.instant_lt in *;
  repeat rewrite ?andb_true_iff, ?orb_true_iff, ?andb_false_iff, ?orb_false_iff,
    ?Z.ltb_lt, ?Z.gtb_ltb, ?Z.eqb_eq, ?Z.ltb_ge, ?Z.eqb_neq in *.

(* ------------------------------------------------------------------ *)
(** ** Instants *)

Lemma Before_instant_lt (t u : time.Time) :
  time.Before t u = true <-> time.instant_lt t u.
Proof. unfold_instants. lia. Qed.

Lemma After_instant_lt (t u : time.Time) :
  time.After t u = true <-> time.instant_lt u t.
Proof. unfold_instants. lia. Qed.

Lemma instant_lt_irrefl (t : time.Time) : ~ time.instant_lt t t.
Proof. unfold_instants. lia. Qed.

Lemma instant_lt_trans (t u v : time.Time) :
  time.instant_lt t u -> time.instant_lt u v -> time.instant_lt t v.
Proof. unfold_instants. lia. Qed.

Lemma instant_le_lt_trans (t u v : time.Time) :
  time.instant_le t u -> time.instant_lt u v -> time.instant_lt t v.
Proof. unfold_instants. lia. Qed.

Lemma instant_le_not_lt (t u : time.Time) :
  time.instant_le t u <-> ~ time.instant_lt u t.
Proof. unfold_instants. lia. Qed.

Lemma Before_After (t u : time.Time) : time.After t u = time.Before u t.
Proof.
  apply eq_true_iff_eq. rewrite After_instant_lt, Before_instant_lt. tauto.
Qed.

#[local] Hint Resolve instant_lt_trans instant_le_lt_trans : schej.

Lemma inWindow_spec (payload : payload_t) (item : Item) :
  inWindow payload item = true <->
  time.instant_lt (TimeMin payload) (DateTime (Start item))
  /\ time.instant_lt (DateTime (End_ item)) (TimeMax payload).
Proof.
  unfold inWindow. now rewrite andb_true_iff, Before_instant_lt, After_instant_lt.
Qed.

Lemma inWindow_excludes (payload : payload_t) (item : Item) :
  time.instant_le (DateTime (Start item)) (TimeMin payload)
  \/ time.instant_le (TimeMax payload) (DateTime (End_ item)) ->
  inWindow payload item = false.
Proof.
  intros H. apply not_true_is_false. rewrite inWindow_spec.
  rewrite !instant_le_not_lt in H. tauto.
Qed.

(* ------------------------------------------------------------------ *)
(** ** The loop of [getCalendar] *)

Section Loop.

Variable payload : payload_t.

(** The loop only ever appends: from a non-nil slice it leaves the slice
    followed by the restructured items that pass the condition. *)
Lemma loop_from (items : list Item) (acc : list models.CalendarEvent) :
  fold_left (loopBody payload) items (Some acc)
  = Some (acc ++ map restructure (filter (inWindow payload) items)).
Proof.
  revert acc. induction items as [|item rest IH]; intros acc; simpl.
  - now rewrite app_nil_r.
  - unfold loopBody at 2. destruct (inWindow payload item); simpl.
    + rewrite IH, <- app_assoc. reflexivity.
    + apply IH.
Qed.

Lemma formatResponse_filter (items : Go.slice Item) :
  formatResponse payload items
  = Some (map restructure (filter (inWindow payload) (Go.elements items))).
Proof. unfold formatResponse, Go.make0. now rewrite loop_from. Qed.

Lemma formatResponse_In (items : Go.slice Item) (ev : models.CalendarEvent) :
  In ev (Go.elements (formatResponse payload items)) <->
  exists item, In item (Go.elements items)
               /\ inWindow payload item = true /\ ev = restructure item.
Proof.
  rewrite formatResponse_filter. simpl. rewrite in_map_iff. split.
  - intros (item & <- & Hin). apply filter_In in Hin. now exists item.
  - intros (item & Hin & Hk & ->). exists item. split; [reflexivity|].
    now apply filter_In.
Qed.

(** A step of the loop is one application of [loopBody]. *)
Lemma loopStep_body (s s' : loopState) :
  loopStep payload s s' ->
  exists item rest,
    pending s = item :: rest /\ pending s' = rest
    /\ calendarEvents s' = loopBody payload (calendarEvents s) item.
Proof.
  intros H. destruct H as [item rest acc Hk | item rest acc Hk];
    exists item, rest; unfold loopBody; simpl; rewrite Hk; auto.
Qed.

Lemma loopRuns_fold (s : loopState) (out : Go.slice models.CalendarEvent) :
  loopRuns payload s out ->
  out = fold_left (loopBody payload) (pending s) (calendarEvents s).
Proof.
  induction 1 as [acc | s s' out Hstep _ IH]; [reflexivity|].
  apply loopStep_body in Hstep as (item & rest & Hs & Hs' & Hacc).
  rewrite IH, Hs, Hs', Hacc. reflexivity.
Qed.

Lemma fold_loopRuns (items : list Item) (acc : Go.slice models.CalendarEvent) :
  loopRuns payload (mkLoop items acc) (fold_left (loopBody payload) items acc).
Proof.
  revert acc. induction items as [|item rest IH]; intros acc; simpl.
  - constructor.
  - destruct (inWindow payload item) eqn:Hk.
    + eapply runs_step; [now apply step_keep|].
      unfold loopBody at 2. rewrite Hk. apply IH.
    + eapply runs_step; [now apply step_skip|].
      unfold loopBody at 2. rewrite Hk. apply IH.
Qed.

End Loop.

(* ------------------------------------------------------------------ *)
(** ** The window filter *)

(** C1.  For every window and every list of decoded items, the events that
    [getCalendar] builds are exactly the items with [timeMin] strictly before
    their start and [timeMax] strictly after their end, each restructured
    whole (its own start and end, never clipped to the window), in the order
    of the input; an item whose start is at or before [timeMin], or whose end
    is at or after [timeMax], is left out. *)
Theorem C1_window_filter (payload : payload_t) (items : Go.slice Item) :
  formatResponse payload items
  = Some (map restructure (filter (inWindow payload) (Go.elements items)))
  /\ (forall item,
        inWindow payload item = true <->
        time.instant_lt (TimeMin payload) (DateTime (Start item))
        /\ time.instant_lt (DateTime (End_ item)) (TimeMax payload))
  /\ (forall item,
        time.instant_le (DateTime (Start item)) (TimeMin payload)
        \/ time.instant_le (TimeMax payload) (DateTime (End_ item)) ->
        inWindow payload item = false)
  /\ (forall ev,
        In ev (Go.elements (formatResponse payload items)) <->
        exists item, In item (Go.elements items)
                     /\ inWindow payload item = true /\ ev = restructure item).
Proof.
  split; [apply formatResponse_filter|].
  split; [apply inWindow_spec|].
  split; [apply inWindow_excludes|].
  intros ev. apply formatResponse_In.
Qed.

Lemma C1_window_filter_witness :
  formatResponse day_payload (Some [breakfast; meeting; party; reversed_item])
  = Some [restructure meeting; restructure reversed_item]
  /\ inWindow day_payload breakfast = false
  /\ inWindow day_payload party = false.
Proof.
  split; [|split].
  - exact (proj1 (C1_window_filter day_payload
                    (Some [breakfast; meeting; party; reversed_item]))).
  - apply (proj1 (proj2 (proj2 (C1_window_filter day_payload None)))).
    left. right. split; reflexivity.
  - apply (proj1 (proj2 (proj2 (C1_window_filter day_payload None)))).
    right. left. left. simpl. lia.
Defined.

(** Past the decoding and the error check, the handler answers with what the
    loop built. *)
Lemma getCalendar_OK (payload : payload_t) (b : rawBody) (res : Response) :
  Decode b = Some res -> Error res = None ->
  getCalendar (Some payload) (Body b) = JSON_OK (formatResponse payload (Items res)).
Proof. intros Hd He. simpl. now rewrite Hd, He. Qed.

(** C7.  The filter step is a function of the window and the items: run from
    its start state the loop ends, and every run of it over the same window
    and the same items ends with the same list, the one [formatResponse]
    computes. *)
Theorem C7_deterministic (payload : payload_t) (items : Go.slice Item) :
  loopRuns payload (loopStart items) (formatResponse payload items)
  /\ (forall out1 out2,
        loopRuns payload (loopStart items) out1 ->
        loopRuns payload (loopStart items) out2 ->
        out1 = out2).
Proof.
  split.
  - apply fold_loopRuns.
  - intros out1 out2 H1 H2.
    apply loopRuns_fold in H1, H2. congruence.
Qed.

Lemma C7_deterministic_witness :
  Some [restructure meeting] = formatResponse day_payload (Some [meeting; party]).
Proof.
  apply (proj2 (C7_deterministic day_payload (Some [meeting; party]))).
  - eapply runs_step; [apply step_keep; reflexivity|].
    eapply runs_step; [apply step_skip; reflexivity|].
    apply runs_done.
  - exact (proj1 (C7_deterministic day_payload (Some [meeting; party]))).
Defined.

(** C9.  When [timeMin] is not before [timeMax] and every item starts before
    it ends, no item passes the condition and the list returned is empty. *)
Theorem C9_degenerate_window (payload : payload_t) (items : Go.slice Item) :
  time.instant_le (TimeMax payload) (TimeMin payload) ->
  Forall (fun item => time.instant_lt (DateTime (Start item)) (DateTime (End_ item)))
         (Go.elements items) ->
  Forall (fun item => inWindow payload item = false) (Go.elements items)
  /\ formatResponse payload items = Some [].
Proof.
  intros Hwin Hitems.
  assert (Hnone : Forall (fun item => inWindow payload item = false) (Go.elements items)).
  { apply Forall_forall. intros item Hin.
    rewrite Forall_forall in Hitems. specialize (Hitems item Hin).
    apply not_true_is_false. rewrite inWindow_spec. intros [Hs He].
    apply instant_le_not_lt in Hwin. apply Hwin.
    eauto with schej. }
  split; [exact Hnone|].
  rewrite formatResponse_filter. f_equal.
  induction (Go.elements items) as [|item rest IH]; [reflexivity|].
  inversion Hnone as [|? ? Hk Hrest]; subst. simpl. rewrite Hk.
  inversion Hitems; subst. now apply IH.
Qed.

Lemma C9_degenerate_window_witness :
  formatResponse degenerate_payload ordered_items = Some [].
Proof.
  apply (C9_degenerate_window degenerate_payload ordered_items).
  - right. simpl. lia.
  - repeat constructor; simpl; lia.
Defined.

(* ------------------------------------------------------------------ *)
(** ** Milliseconds *)

Lemma wrap64_id (z : Z) : Go.minInt64 <= z <= Go.maxInt64 -> Go.wrap64 z = z.
Proof.
  unfold Go.minInt64, Go.maxInt64, Go.wrap64. intros H.
  rewrite Z.mod_small; lia.
Qed.

(** Within range the conversion is the instant in whole milliseconds. *)
Lemma NewDateTimeFromTime_millis (t : time.Time) :
  time.valid t -> primitive.fits t ->
  primitive.NewDateTimeFromTime t = time.sec t * 1000 + time.nsec t / 1000000
  /\ 0 <= time.nsec t / 1000000 < 1000.
Proof.
  unfold time.valid, primitive.fits, primitive.NewDateTimeFromTime,
    time.Unix_of, time.Nanosecond.
  intros Hn Hs. rewrite Z.quot_div_nonneg by lia.
  assert (Hm : 0 <= time.nsec t / 1000000 < 1000).
  { split; [apply Z.div_pos; lia | apply Z.div_lt_upper_bound; lia]. }
  split; [|exact Hm].
  apply wrap64_id. unfold Go.minInt64, Go.maxInt64. lia.
Qed.

Lemma NewDateTimeFromTime_mono (t u : time.Time) :
  time.valid t -> time.valid u -> primitive.fits t -> primitive.fits u ->
  time.instant_lt t u ->
  primitive.NewDateTimeFromTime t <= primitive.NewDateTimeFromTime u.
Proof.
  intros Vt Vu Ft Fu Hlt.
  destruct (NewDateTimeFromTime_millis t Vt Ft) as [-> Bt].
  destruct (NewDateTimeFromTime_millis u Vu Fu) as [-> Bu].
  destruct Hlt as [Hs | [Hs Hn]]; [lia|].
  rewrite Hs. apply Z.add_le_mono_l. apply Z.div_le_mono; lia.
Qed.

Lemma NewDateTimeFromTime_strict (t u : time.Time) :
  time.valid t -> time.valid u -> primitive.fits t -> primitive.fits u ->
  time.nanos t + 1000000 <= time.nanos u ->
  primitive.NewDateTimeFromTime t < primitive.NewDateTimeFromTime u.
Proof.
  intros Vt Vu Ft Fu Hgap.
  destruct (NewDateTimeFromTime_millis t Vt Ft) as [-> Bt].
  destruct (NewDateTimeFromTime_millis u Vu Fu) as [-> Bu].
  unfold time.nanos in Hgap.
  pose proof (Z.div_mod (time.nsec t) 1000000 ltac:(lia)) as Et.
  pose proof (Z.div_mod (time.nsec u) 1000000 ltac:(lia)) as Eu.
  pose proof (Z.mod_pos_bound (time.nsec t) 1000000 ltac:(lia)) as Rt.
  pose proof (Z.mod_pos_bound (time.nsec u) 1000000 ltac:(lia)) as Ru.
  lia.
Qed.

Lemma quot_rem_1000 (d s m : Z) :
  d = 1000 * s + m -> 0 <= m < 1000 ->
  (0 <= Z.rem d 1000 /\ Z.quot d 1000 = s /\ Z.rem d 1000 = m)
  \/ (0 < m /\ Z.quot d 1000 = s + 1 /\ Z.rem d 1000 = m - 1000).
Proof.
  intros Hd Hm.
  pose proof (Z.quot_rem' d 1000) as E.
  pose proof (Z.rem_bound_abs d 1000) as B.
  lia.
Qed.

(** [DateTime.Time] gives back a [Time] that lies on a whole millisecond. *)
Lemma DateTime_Time_NewDateTimeFromTime (t : time.Time) :
  time.valid t -> primitive.fits t -> time.nsec t mod 1000000 = 0 ->
  primitive.DateTime_Time (primitive.NewDateTimeFromTime t) = t.
Proof.
  intros Vt Ft Hms.
  destruct (NewDateTimeFromTime_millis t Vt Ft) as [-> Bm].
  pose proof (Z.div_mod (time.nsec t) 1000000 ltac:(lia)) as En.
  rewrite Hms, Z.add_0_r in En.
  unfold primitive.fits in Ft.
  set (m := time.nsec t / 1000000) in *.
  unfold primitive.DateTime_Time, time.Unix.
  destruct (quot_rem_1000 (time.sec t * 1000 + m) (time.sec t) m ltac:(lia) Bm)
    as [(Hr & -> & ->) | (Hr & -> & ->)].
  - replace ((m * 1000000 <? 0) || (m * 1000000 >=? 1000000000)) with false.
    + destruct t as [s n]; cbn [time.sec time.nsec] in *. f_equal. lia.
    + symmetry. apply orb_false_iff. split; [apply Z.ltb_ge; lia|].
      rewrite Z.geb_leb. apply Z.leb_gt. lia.
  - replace (((m - 1000) * 1000000 <? 0) || ((m - 1000) * 1000000 >=? 1000000000))
      with true by (symmetry; apply orb_true_iff; left; apply Z.ltb_lt; lia).
    replace (Z.quot ((m - 1000) * 1000000) 1000000000) with 0
      by (symmetry; apply Z.quot_small_iff; lia).
    cbv zeta. rewrite Z.mul_0_l, Z.add_0_r.
    rewrite (wrap64_id 0) by (unfold Go.minInt64, Go.maxInt64; lia).
    rewrite Z.sub_0_r.
    rewrite (wrap64_id ((m - 1000) * 1000000)) by (unfold Go.minInt64, Go.maxInt64; lia).
    rewrite (wrap64_id (time.sec t + 1)) by (unfold Go.minInt64, Go.maxInt64; lia).
    replace ((m - 1000) * 1000000 <? 0) with true by (symmetry; apply Z.ltb_lt; lia).
    rewrite wrap64_id by (unfold Go.minInt64, Go.maxInt64; lia).
    destruct t as [s n]; cbn [time.sec time.nsec] in *. f_equal; lia.
Qed.

(* ------------------------------------------------------------------ *)
(** ** The canonical event *)

Lemma restructure_le (item : Item) :
  itemInRange item ->
  time.instant_lt (DateTime (Start item)) (DateTime (End_ item)) ->
  models.StartDate (restructure item) <= models.EndDate (restructure item).
Proof.
  intros [[Vs Fs] [Ve Fe]] Hlt. simpl. now apply NewDateTimeFromTime_mono.
Qed.

Lemma restructure_lt (item : Item) :
  itemInRange item -> itemLasts item ->
  models.StartDate (restructure item) < models.EndDate (restructure item).
Proof.
  intros [[Vs Fs] [Ve Fe]] Hgap. simpl. now apply NewDateTimeFromTime_strict.
Qed.

(** C5 (as the code has it).  [getCalendar] does not compare the start of an
    item with its end.  When every item has its instants within the range of
    [DateTime] and ends at least one millisecond after it starts, every event
    of the output has [StartDate] strictly before [EndDate]. *)
Theorem C5_start_before_end (payload : payload_t) (items : Go.slice Item) :
  Forall (fun item => itemInRange item /\ itemLasts item) (Go.elements items) ->
  Forall (fun ev => models.StartDate ev < models.EndDate ev)
         (Go.elements (formatResponse payload items)).
Proof.
  intros Hitems. apply Forall_forall. intros ev Hev.
  apply formatResponse_In in Hev as (item & Hin & _ & ->).
  rewrite Forall_forall in Hitems. destruct (Hitems item Hin) as [Hr Hl].
  now apply restructure_lt.
Qed.

Lemma C5_start_before_end_witness :
  Forall (fun ev => models.StartDate ev < models.EndDate ev)
         (Go.elements (formatResponse day_payload (Some [meeting; meeting_ns]))).
Proof.
  apply (C5_start_before_end day_payload (Some [meeting; meeting_ns])).
  repeat constructor; vm_compute; congruence.
Defined.

(** C5, the claim as stated, fails: an item inside the window whose end
    precedes its start is kept, with [StartDate] after [EndDate]. *)
Lemma C5_reversed_item_kept :
  formatResponse day_payload (Some [reversed_item])
  = Some [models.mkCalendarEvent "reversed" 7200000 3600000]
  /\ ~ Forall (fun ev => models.StartDate ev < models.EndDate ev)
         (Go.elements (formatResponse day_payload (Some [reversed_item]))).
Proof.
  split; [reflexivity|].
  intros H. inversion H as [|ev rest Hlt _]; subst.
  vm_compute in Hlt. discriminate.
Qed.

(** With the order of the instants alone the dates may coincide, never
    cross. *)
Lemma formatResponse_start_le_end (payload : payload_t) (items : Go.slice Item) :
  Forall (fun item => itemInRange item
            /\ time.instant_lt (DateTime (Start item)) (DateTime (End_ item)))
         (Go.elements items) ->
  Forall (fun ev => models.StartDate ev <= models.EndDate ev)
         (Go.elements (formatResponse payload items)).
Proof.
  intros Hitems. apply Forall_forall. intros ev Hev.
  apply formatResponse_In in Hev as (item & Hin & _ & ->).
  rewrite Forall_forall in Hitems. destruct (Hitems item Hin) as [Hr Hl].
  now apply restructure_le.
Qed.

Lemma reencode_restructure (item : Item) :
  itemInRange item -> itemWholeMillis item ->
  reencode (restructure item) = item.
Proof.
  intros [[Vs Fs] [Ve Fe]] [Ms Me].
  destruct item as [summary [start] [end_]]. unfold reencode, restructure. simpl in *.
  now rewrite !DateTime_Time_NewDateTimeFromTime.
Qed.

(** C4 (as the code has it).  The canonical event holds its instants in
    whole milliseconds.  For an item whose start and end lie within the range
    of [DateTime] and on whole milliseconds, restructuring and re-encoding
    gives the item back: summary, start and end are those of the item. *)
Theorem C4_round_trip (item : Item) :
  itemInRange item -> itemWholeMillis item ->
  reencode (restructure item) = item
  /\ models.Summary (restructure item) = Item_Summary item.
Proof.
  intros Hr Hm. split; [now apply reencode_restructure | reflexivity].
Qed.

Lemma C4_round_trip_witness :
  reencode (restructure meeting) = meeting
  /\ models.Summary (restructure meeting) = Item_Summary meeting.
Proof.
  apply (C4_round_trip meeting).
  - repeat split; vm_compute; congruence.
  - split; reflexivity.
Defined.

(** C4, the claim as stated, fails: two items that start one nanosecond
    apart have the same canonical event, so the start of one of them does not
    come back. *)
Lemma C4_nanoseconds_lost :
  restructure meeting_ns = restructure meeting
  /\ DateTime (Start meeting_ns) <> DateTime (Start meeting)
  /\ DateTime (Start (reencode (restructure meeting_ns))) <> DateTime (Start meeting_ns).
Proof.
  repeat split; try reflexivity; vm_compute; discriminate.
Qed.

(** What is kept determines the item: restructuring is one-to-one on the
    items that [DateTime] holds exactly. *)
Lemma restructure_injective (item1 item2 : Item) :
  itemInRange item1 -> itemWholeMillis item1 ->
  itemInRange item2 -> itemWholeMillis item2 ->
  restructure item1 = restructure item2 -> item1 = item2.
Proof.
  intros R1 M1 R2 M2 Heq.
  rewrite <- (reencode_restructure item1 R1 M1), <- (reencode_restructure item2 R2 M2).
  now rewrite Heq.
Qed.

(* ------------------------------------------------------------------ *)
(** ** Decoding the response *)

(** The items decode together or not at all. *)
Lemma decodeItems_malformed (rs : list rawItem) (r : rawItem) :
  In r rs -> malformed r -> decodeItems rs = None.
Proof.
  unfold malformed. induction rs as [|r' rest IH]; intros Hin Hbad; [contradiction|].
  simpl. destruct Hin as [-> | Hin].
  - now rewrite Hbad.
  - rewrite (IH Hin Hbad). now destruct (decodeItem r').
Qed.

Lemma decodeItems_Some (rs : list rawItem) (its : list Item) :
  decodeItems rs = Some its -> Forall wellFormed rs /\ List.length its = List.length rs.
Proof.
  revert its. induction rs as [|r rest IH]; intros its H; simpl in H.
  - injection H as <-. split; [constructor | reflexivity].
  - destruct (decodeItem r) as [it|] eqn:Hr; [|discriminate].
    destruct (decodeItems rest) as [its'|]; [|discriminate].
    injection H as <-. destruct (IH its' eq_refl) as [Hwf Hlen].
    split; [constructor; [now exists it | exact Hwf] | simpl; now rewrite Hlen].
Qed.

Lemma Decode_malformed (b : rawBody) (rs : list rawItem) (r : rawItem) :
  raw_items b = Some rs -> In r rs -> malformed r -> Decode b = None.
Proof.
  intros Hrs Hin Hbad. unfold Decode. rewrite Hrs.
  now rewrite (decodeItems_malformed rs r Hin Hbad).
Qed.

(** C3 (as the code has it).  The response is decoded as a whole.  When one
    of its items does not decode, the decoding of the response fails and
    [getCalendar] panics, whatever the other items are: no item is returned
    and nothing is reported for the item that failed. *)
Theorem C3_malformed_item_panics
    (payload : payload_t) (b : rawBody) (rs : list rawItem) (r : rawItem) :
  raw_items b = Some rs -> In r rs -> malformed r ->
  Decode b = None /\ getCalendar (Some payload) (Body b) = Panics.
Proof.
  intros Hrs Hin Hbad.
  assert (Hd : Decode b = None) by (eapply Decode_malformed; eauto).
  split; [exact Hd|]. simpl. now rewrite Hd.
Qed.

Lemma C3_malformed_item_panics_witness :
  Decode mixed_body = None /\ getCalendar (Some day_payload) (Body mixed_body) = Panics.
Proof.
  apply (C3_malformed_item_panics day_payload mixed_body [good_raw; bad_raw] bad_raw).
  - reflexivity.
  - simpl. right. left. reflexivity.
  - reflexivity.
Defined.

(** C3, the claim as stated, fails: a response with one item that decodes
    and one that does not gives no partial result, the handler panics. *)
Lemma C3_no_partial_decoding :
  wellFormed good_raw /\ malformed bad_raw
  /\ In good_raw [good_raw; bad_raw] /\ In bad_raw [good_raw; bad_raw]
  /\ raw_items mixed_body = Some [good_raw; bad_raw]
  /\ getCalendar (Some day_payload) (Body mixed_body) = Panics
  /\ (forall evs, getCalendar (Some day_payload) (Body mixed_body) <> JSON_OK evs).
Proof.
  split; [eexists; reflexivity|].
  split; [reflexivity|].
  split; [now left|].
  split; [now right; left|].
  split; [reflexivity|].
  split; [reflexivity|].
  intros evs. discriminate.
Qed.

(* ------------------------------------------------------------------ *)
(** ** The empty result *)

(** C6 (as the code has it).  For a response that decodes and has no [error]
    member, when no item passes the filter (also when there is no item) the
    handler answers 200 with a list that is empty and not nil. *)
Theorem C6_empty_is_success (payload : payload_t) (b : rawBody) (res : Response) :
  Decode b = Some res ->
  Error res = None ->
  Forall (fun item => inWindow payload item = false) (Go.elements (Items res)) ->
  getCalendar (Some payload) (Body b) = JSON_OK (Some []).
Proof.
  intros Hd He Hnone. rewrite (getCalendar_OK payload b res Hd He). f_equal.
  rewrite formatResponse_filter. f_equal.
  induction (Go.elements (Items res)) as [|item rest IH]; [reflexivity|].
  inversion Hnone as [|? ? Hk Hrest]; subst. simpl. rewrite Hk. now apply IH.
Qed.

Lemma C6_empty_is_success_witness :
  getCalendar (Some day_payload) (Body late_body) = JSON_OK (Some []).
Proof.
  apply (C6_empty_is_success day_payload late_body
           (mkResponse (Some [party]) None)).
  - reflexivity.
  - reflexivity.
  - repeat constructor.
Defined.

(** C6, the claim as stated, fails: the provider's error response has no
    item, so no item of it passes the filter, and the handler answers 500
    with the response, not 200 with an empty list. *)
Lemma C6_error_response_is_500 :
  Decode error_body = Some (mkResponse None (Some "{code: 401}"))
  /\ Forall (fun item => inWindow day_payload item = false)
       (Go.elements (Items (mkResponse None (Some "{code: 401}"))))
  /\ getCalendar (Some day_payload) (Body error_body)
     = JSON_InternalServerError (mkResponse None (Some "{code: 401}"))
  /\ getCalendar (Some day_payload) (Body error_body) <> JSON_OK (Some []).
Proof.
  split; [reflexivity|].
  split; [constructor|].
  split; [reflexivity|].
  discriminate.
Qed.

(* ------------------------------------------------------------------ *)
(** ** The provider factory *)

Section Factory.

Context {GoogleCalendarAuth_t AppleCalendarAuth_t : Type}.
Implicit Type account : models.CalendarAccount GoogleCalendarAuth_t AppleCalendarAuth_t.

Lemma GetCalendarProvider_unsupported account :
  ~ calendar.supported (models.CalendarType_of account) ->
  calendar.GetCalendarProvider account = Go.Returned None.
Proof.
  unfold calendar.supported, calendar.GetCalendarProvider. intros Hns.
  destruct (String.eqb_spec (models.CalendarType_of account) models.GoogleCalendarType) as [E|_];
    [tauto|].
  destruct (String.eqb_spec (models.CalendarType_of account) models.AppleCalendarType) as [E|_];
    [tauto|].
  reflexivity.
Qed.

Lemma GetCalendarProvider_google account (auth : GoogleCalendarAuth_t) :
  models.CalendarType_of account = models.GoogleCalendarType ->
  models.GoogleCalendarAuth account = Some auth ->
  calendar.GetCalendarProvider account
  = Go.Returned (Some (calendar.GoogleProvider (calendar.mkGoogleCalendar auth))).
Proof.
  unfold calendar.GetCalendarProvider. intros -> ->. reflexivity.
Qed.

Lemma GetCalendarProvider_apple account (auth : AppleCalendarAuth_t) :
  models.CalendarType_of account = models.AppleCalendarType ->
  models.AppleCalendarAuth account = Some auth ->
  calendar.GetCalendarProvider account
  = Go.Returned (Some (calendar.AppleProvider (calendar.mkAppleCalendar auth))).
Proof.
  unfold calendar.GetCalendarProvider. intros -> ->. reflexivity.
Qed.

(** A supported type without its bundle: the dereference panics. *)
Lemma GetCalendarProvider_missing_bundle account :
  (models.CalendarType_of account = models.GoogleCalendarType
   /\ models.GoogleCalendarAuth account = None)
  \/ (models.CalendarType_of account = models.AppleCalendarType
      /\ models.AppleCalendarAuth account = None) ->
  calendar.GetCalendarProvider account = Go.Panicked.
Proof.
  unfold calendar.GetCalendarProvider. intros [[-> ->] | [-> ->]]; reflexivity.
Qed.

(** C2 (as the code has it).  [GetCalendarProvider] has a single result, the
    provider.  For a type outside the supported set it returns the nil
    provider; for a supported type whose credential bundle is present it
    returns the adapter built around that bundle. *)
Theorem C2_provider_factory account :
  (~ calendar.supported (models.CalendarType_of account) ->
   calendar.GetCalendarProvider account = Go.Returned None)
  /\ (forall auth,
        models.CalendarType_of account = models.GoogleCalendarType ->
        models.GoogleCalendarAuth account = Some auth ->
        calendar.GetCalendarProvider account
        = Go.Returned (Some (calendar.GoogleProvider (calendar.mkGoogleCalendar auth))))
  /\ (forall auth,
        models.CalendarType_of account = models.AppleCalendarType ->
        models.AppleCalendarAuth account = Some auth ->
        calendar.GetCalendarProvider account
        = Go.Returned (Some (calendar.AppleProvider (calendar.mkAppleCalendar auth)))).
Proof.
  split; [apply GetCalendarProvider_unsupported|].
  split; intros auth; [apply GetCalendarProvider_google | apply GetCalendarProvider_apple].
Qed.

End Factory.

Lemma C2_provider_factory_witness :
  calendar.GetCalendarProvider outlook_account = Go.Returned None
  /\ calendar.GetCalendarProvider google_account
     = Go.Returned (Some (calendar.GoogleProvider (calendar.mkGoogleCalendar "google-token")))
  /\ calendar.GetCalendarProvider apple_account
     = Go.Returned (Some (calendar.AppleProvider (calendar.mkAppleCalendar "apple-password"))).
Proof.
  split; [|split].
  - apply (proj1 (C2_provider_factory outlook_account)).
    intros [H | H]; vm_compute in H; discriminate.
  - apply (proj1 (proj2 (C2_provider_factory google_account))); reflexivity.
  - apply (proj2 (proj2 (C2_provider_factory apple_account))); reflexivity.
Defined.

(** C2, the claim as stated, fails: for an account of a type that is not
    supported the factory returns the nil provider, and no error. *)
Lemma C2_unknown_type_returns_nil :
  ~ calendar.supported (models.CalendarType_of outlook_account)
  /\ calendar.GetCalendarProvider outlook_account = Go.Returned None.
Proof.
  split; [|reflexivity].
  intros [H | H]; vm_compute in H; discriminate.
Qed.

(* ------------------------------------------------------------------ *)
(** ** Event ids *)

Lemma hexEncode_length (src : list byte) :
  String.length (primitive.hexEncode src) = (2 * List.length src)%nat.
Proof.
  induction src as [|v rest IH]; simpl; [reflexivity|]. rewrite IH. lia.
Qed.

(** The hexadecimal form of a 12-byte id has 24 characters. *)
Lemma Hex_length (id : primitive.ObjectID) :
  List.length id = 12%nat -> String.length (primitive.Hex id) = 24%nat.
Proof. intros H. unfold primitive.Hex. now rewrite hexEncode_length, H. Qed.

(** C10.  [GetId] returns the short id when there is one, and the
    hexadecimal form of [Id] otherwise; with a short id that is not empty
    the result is not empty. *)
Theorem C10_GetId (e : models.Event) :
  (forall shortId,
     models.ShortId e = Some shortId ->
     models.GetId e = shortId /\ (shortId <> EmptyString -> models.GetId e <> EmptyString))
  /\ (models.ShortId e = None -> models.GetId e = primitive.Hex (models.Id e)).
Proof.
  unfold models.GetId. split.
  - intros shortId ->. split; [reflexivity | auto].
  - intros ->. reflexivity.
Qed.

Lemma C10_GetId_witness :
  models.GetId short_event = "aB3xZ"
  /\ models.GetId short_event <> EmptyString
  /\ models.GetId plain_event = "65f0a1b2c3d4e5f60102030f".
Proof.
  split; [|split].
  - apply (proj1 (C10_GetId short_event) "aB3xZ"). reflexivity.
  - apply (proj1 (C10_GetId short_event) "aB3xZ"); [reflexivity | discriminate].
  - exact (proj2 (C10_GetId plain_event) eq_refl).
Defined.

(* ================================================================== *)
(** * Further properties of the code *)

(* ------------------------------------------------------------------ *)
(** ** The loop over the items *)

Lemma filter_length_bound {A : Type} (f : A -> bool) (l : list A) :
  (List.length (filter f l) <= List.length l)%nat.
Proof.
  induction l as [|a l IH]; simpl; [lia|]. destruct (f a); simpl; lia.
Qed.

Lemma filter_length_all {A : Type} (f : A -> bool) (l : list A) :
  List.length (filter f l) = List.length l <-> Forall (fun a => f a = true) l.
Proof.
  induction l as [|a l IH]; simpl.
  - split; [constructor | reflexivity].
  - pose proof (filter_length_bound f l) as Hb.
    destruct (f a) eqn:Hfa; simpl; split; intros H.
    + constructor; [exact Hfa | apply IH; lia].
    + inversion H; subst. f_equal. now apply IH.
    + lia.
    + inversion H; subst. congruence.
Qed.

Lemma filter_length_impl {A : Type} (f g : A -> bool) (l : list A) :
  (forall a, In a l -> f a = true -> g a = true) ->
  (List.length (filter f l) <= List.length (filter g l))%nat.
Proof.
  induction l as [|a l IH]; intros H; simpl; [lia|].
  assert (IH' : (List.length (filter f l) <= List.length (filter g l))%nat).
  { apply IH. intros b Hb. apply H. now right. }
  destruct (f a) eqn:Hfa.
  - rewrite (H a (or_introl eq_refl) Hfa). simpl. lia.
  - destruct (g a); simpl; lia.
Qed.

(** The events built from a list of items are those built from its first
    part followed by those built from the rest: the loop carries nothing
    from one item to the next. *)
Theorem formatResponse_app (payload : payload_t) (items1 items2 : list Item) :
  formatResponse payload (Some (items1 ++ items2))
  = Some (Go.elements (formatResponse payload (Some items1))
          ++ Go.elements (formatResponse payload (Some items2))).
Proof.
  rewrite !formatResponse_filter. simpl.
  now rewrite filter_app, map_app.
Qed.

(** The loop builds at most one event per item, and one per item exactly
    when every item passes the condition. *)
Theorem formatResponse_length (payload : payload_t) (items : Go.slice Item) :
  (List.length (Go.elements (formatResponse payload items))
   <= List.length (Go.elements items))%nat
  /\ (List.length (Go.elements (formatResponse payload items))
      = List.length (Go.elements items)
      <-> Forall (fun item => inWindow payload item = true) (Go.elements items)).
Proof.
  rewrite formatResponse_filter. simpl. rewrite length_map. split.
  - apply filter_length_bound.
  - apply filter_length_all.
Qed.

Lemma inWindow_widen (wide narrow : payload_t) (item : Item) :
  time.instant_le (TimeMin wide) (TimeMin narrow) ->
  time.instant_le (TimeMax narrow) (TimeMax wide) ->
  inWindow narrow item = true -> inWindow wide item = true.
Proof.
  rewrite !inWindow_spec. intros Hmin Hmax [Hs He]. split.
  - eauto with schej.
  - revert Hmax He. unfold_instants. lia.
Qed.

(** A wider window loses nothing: when [wide] starts no later and ends no
    earlier than [narrow], every event built for [narrow] is built for
    [wide], which builds at least as many. *)
Theorem formatResponse_widen (wide narrow : payload_t) (items : Go.slice Item) :
  time.instant_le (TimeMin wide) (TimeMin narrow) ->
  time.instant_le (TimeMax narrow) (TimeMax wide) ->
  incl (Go.elements (formatResponse narrow items))
       (Go.elements (formatResponse wide items))
  /\ (List.length (Go.elements (formatResponse narrow items))
      <= List.length (Go.elements (formatResponse wide items)))%nat.
Proof.
  intros Hmin Hmax. split.
  - intros ev Hev. apply formatResponse_In in Hev as (item & Hin & Hk & ->).
    apply formatResponse_In. exists item. repeat split; auto.
    eapply inWindow_widen; eauto.
  - rewrite !formatResponse_filter. simpl. rewrite !length_map.
    apply filter_length_impl. intros item _. now apply inWindow_widen.
Qed.

Lemma formatResponse_widen_witness :
  incl (Go.elements (formatResponse morning_payload (Some [breakfast; meeting; party])))
       (Go.elements (formatResponse day_payload (Some [breakfast; meeting; party])))
  /\ (List.length (Go.elements (formatResponse morning_payload (Some [breakfast; meeting; party])))
      <= List.length (Go.elements (formatResponse day_payload (Some [breakfast; meeting; party]))))%nat.
Proof.
  apply (formatResponse_widen day_payload morning_payload (Some [breakfast; meeting; party])).
  - left. left. simpl. lia.
  - left. left. simpl. lia.
Defined.

(** In milliseconds the events lie within the window: for a window and
    items within the range of [DateTime], no event of the output starts
    before the millisecond of [timeMin] or ends after that of [timeMax]. *)
Theorem formatResponse_within_window (payload : payload_t) (items : Go.slice Item) :
  primitive.inRange (TimeMin payload) -> primitive.inRange (TimeMax payload) ->
  Forall itemInRange (Go.elements items) ->
  Forall (fun ev =>
            primitive.NewDateTimeFromTime (TimeMin payload) <= models.StartDate ev
            /\ models.EndDate ev <= primitive.NewDateTimeFromTime (TimeMax payload))
         (Go.elements (formatResponse payload items)).
Proof.
  intros [Vmin Fmin] [Vmax Fmax] Hitems. apply Forall_forall. intros ev Hev.
  apply formatResponse_In in Hev as (item & Hin & Hk & ->).
  rewrite Forall_forall in Hitems. destruct (Hitems item Hin) as [[Vs Fs] [Ve Fe]].
  apply inWindow_spec in Hk as [Hs He]. simpl.
  split; now apply NewDateTimeFromTime_mono.
Qed.

Lemma formatResponse_within_window_witness :
  Forall (fun ev =>
            primitive.NewDateTimeFromTime (TimeMin day_payload) <= models.StartDate ev
            /\ models.EndDate ev <= primitive.NewDateTimeFromTime (TimeMax day_payload))
         (Go.elements (formatResponse day_payload (Some [meeting_ns; party]))).
Proof.
  apply (formatResponse_within_window day_payload (Some [meeting_ns; party])).
  - split; vm_compute; intuition congruence.
  - split; vm_compute; intuition congruence.
  - repeat constructor; vm_compute; congruence.
Defined.

(* ------------------------------------------------------------------ *)
(** ** Decoding, both ways *)



Lemma decodeItems_map (rs : list rawItem) (its : list Item) :
  decodeItems rs = Some its <-> map decodeItem rs = map Some its.
Proof.
  revert its. induction rs as [|r rest IH]; intros its; simpl.
  - split; intros H.
    + now injection H as <-.
    + destruct its; [reflexivity | discriminate].
  - split; intros H.
    + destruct (decodeItem r) as [it|]; [|discriminate].
      destruct (decodeItems rest) as [its'|] eqn:Hd; [|discriminate].
      injection H as <-. simpl. f_equal. now apply IH.
    + destruct its as [|it its']; [discriminate|]. simpl in H.
      injection H as Hr Hrest. rewrite Hr. apply IH in Hrest. now rewrite Hrest.
Qed.

(** A response that decodes keeps its items one for one and in order, each
    with the summary, start and end of its members, and keeps its [error]
    member; without an [items] member the list is nil. *)
Theorem Decode_keeps_items (b : rawBody) (res : Response) :
  Decode b = Some res ->
  Error res = raw_error b
  /\ match raw_items b with
     | None => Items res = None
     | Some rs =>
         exists its, Items res = Some its
                     /\ map decodeItem rs = map Some its
                     /\ List.length its = List.length rs
                     /\ Forall wellFormed rs
     end.
Proof.
  unfold Decode. destruct (raw_items b) as [rs|].
  - destruct (decodeItems rs) as [its|] eqn:Hd; [|discriminate].
    intros H. injection H as <-. split; [reflexivity|].
    exists its. split; [reflexivity|].
    split; [now apply decodeItems_map|].
    destruct (decodeItems_Some rs its Hd) as [Hwf Hlen]. now split.
  - intros H. injection H as <-. now split.
Qed.

Lemma Decode_keeps_items_witness :
  Error (mkResponse (Some [party]) None) = raw_error late_body
  /\ match raw_items late_body with
     | None => Items (mkResponse (Some [party]) None) = None
     | Some rs =>
         exists its, Items (mkResponse (Some [party]) None) = Some its
                     /\ map decodeItem rs = map Some its
                     /\ List.length its = List.length rs
                     /\ Forall wellFormed rs
     end.
Proof.
  apply (Decode_keeps_items late_body (mkResponse (Some [party]) None)).
  reflexivity.
Defined.

(* ------------------------------------------------------------------ *)
(** ** The answers of [getCalendar] *)

(** A 200 answer is given only for bound query parameters and a body that
    decodes and has no [error] member; its list is the one the loop built
    from the decoded items, and it is never nil. *)
Theorem getCalendar_OK_inv (bound : option payload_t) (resp : fetched)
    (evs : Go.slice models.CalendarEvent) :
  getCalendar bound resp = JSON_OK evs ->
  exists payload b res,
    bound = Some payload /\ resp = Body b
    /\ Decode b = Some res /\ Error res = None
    /\ evs = formatResponse payload (Items res)
    /\ evs <> None.
Proof.
  unfold getCalendar. destruct bound as [payload|]; [|discriminate].
  destruct resp as [| |b]; try discriminate.
  destruct (Decode b) as [res|] eqn:Hd; [|discriminate].
  destruct (Error res) eqn:He; [discriminate|].
  intros H. injection H as <-. exists payload, b, res.
  repeat split; auto. rewrite formatResponse_filter. discriminate.
Qed.

Lemma getCalendar_OK_inv_witness :
  exists payload b res,
    Some day_payload = Some payload /\ Body late_body = Body b
    /\ Decode b = Some res /\ Error res = None
    /\ Some [] = formatResponse payload (Items res)
    /\ Some [] <> (None : Go.slice models.CalendarEvent).
Proof.
  apply (getCalendar_OK_inv (Some day_payload) (Body late_body) (Some [])).
  reflexivity.
Defined.

(** The handler answers 500 exactly when the parameters are bound and the
    body decodes to a response with an [error] member; the answer carries
    that response as decoded, and neither the window nor the items are
    looked at. *)
Theorem getCalendar_500_iff (bound : option payload_t) (resp : fetched) (res : Response) :
  getCalendar bound resp = JSON_InternalServerError res <->
  exists payload b,
    bound = Some payload /\ resp = Body b
    /\ Decode b = Some res /\ Error res <> None.
Proof.
  unfold getCalendar. split.
  - destruct bound as [payload|]; [|discriminate].
    destruct resp as [| |b]; try discriminate.
    destruct (Decode b) as [res'|] eqn:Hd; [|discriminate].
    destruct (Error res') eqn:He; [|discriminate].
    intros H. injection H as <-. exists payload, b.
    repeat split; auto. congruence.
  - intros (payload & b & -> & -> & -> & He).
    destruct (Error res); [reflexivity | congruence].
Qed.


(* ------------------------------------------------------------------ *)
(** ** The results of [GetCalendarProvider] *)

Section FactoryResults.

Context {GoogleCalendarAuth_t AppleCalendarAuth_t : Type}.
Implicit Type account : models.CalendarAccount GoogleCalendarAuth_t AppleCalendarAuth_t.

Lemma GetCalendarProvider_cases account :
  (~ calendar.supported (models.CalendarType_of account)
   /\ calendar.GetCalendarProvider account = Go.Returned None)
  \/ (models.CalendarType_of account = models.GoogleCalendarType
      /\ match models.GoogleCalendarAuth account with
         | Some auth =>
             calendar.GetCalendarProvider account
             = Go.Returned (Some (calendar.GoogleProvider (calendar.mkGoogleCalendar auth)))
         | None => calendar.GetCalendarProvider account = Go.Panicked
         end)
  \/ (models.CalendarType_of account = models.AppleCalendarType
      /\ match models.AppleCalendarAuth account with
         | Some auth =>
             calendar.GetCalendarProvider account
             = Go.Returned (Some (calendar.AppleProvider (calendar.mkAppleCalendar auth)))
         | None => calendar.GetCalendarProvider account = Go.Panicked
         end).
Proof.
  unfold calendar.GetCalendarProvider, calendar.supported.
  destruct (String.eqb_spec (models.CalendarType_of account) models.GoogleCalendarType) as [Eg|Ng].
  - right. left. split; [exact Eg|]. now destruct (models.GoogleCalendarAuth account).
  - destruct (String.eqb_spec (models.CalendarType_of account) models.AppleCalendarType) as [Ea|Na].
    + right. right. split; [exact Ea|]. now destruct (models.AppleCalendarAuth account).
    + left. split; [tauto | reflexivity].
Qed.

(** The factory returns the nil provider exactly for the types it has no
    case for: with a supported type it returns an adapter or panics. *)
Theorem GetCalendarProvider_nil_iff account :
  calendar.GetCalendarProvider account = Go.Returned None
  <-> ~ calendar.supported (models.CalendarType_of account).
Proof.
  split.
  - intros H.
    destruct (GetCalendarProvider_cases account) as [[Hns _] | [[_ Hg] | [_ Ha]]].
    + exact Hns.
    + destruct (models.GoogleCalendarAuth account); congruence.
    + destruct (models.AppleCalendarAuth account); congruence.
  - apply GetCalendarProvider_unsupported.
Qed.

(** The factory panics exactly when the account has a supported type and
    the pointer to the bundle of that type is nil. *)
Theorem GetCalendarProvider_panics_iff account :
  calendar.GetCalendarProvider account = Go.Panicked
  <-> (models.CalendarType_of account = models.GoogleCalendarType
       /\ models.GoogleCalendarAuth account = None)
      \/ (models.CalendarType_of account = models.AppleCalendarType
          /\ models.AppleCalendarAuth account = None).
Proof.
  split.
  - intros H.
    destruct (GetCalendarProvider_cases account) as [[_ Hn] | [[Eg Hg] | [Ea Ha]]].
    + congruence.
    + left. split; [exact Eg|].
      destruct (models.GoogleCalendarAuth account); [congruence | reflexivity].
    + right. split; [exact Ea|].
      destruct (models.AppleCalendarAuth account); [congruence | reflexivity].
  - apply GetCalendarProvider_missing_bundle.
Qed.

(** A provider that the factory returns is of the kind the account's type
    names and holds the account's bundle of that kind; the bundle of the
    other kind plays no part. *)
Theorem GetCalendarProvider_returned_inv account
    (provider : calendar.CalendarProvider GoogleCalendarAuth_t AppleCalendarAuth_t) :
  calendar.GetCalendarProvider account = Go.Returned (Some provider) ->
  match provider with
  | calendar.GoogleProvider g =>
      models.CalendarType_of account = models.GoogleCalendarType
      /\ models.GoogleCalendarAuth account = Some (calendar.GoogleCalendar_Auth _ g)
  | calendar.AppleProvider a =>
      models.CalendarType_of account = models.AppleCalendarType
      /\ models.AppleCalendarAuth account = Some (calendar.AppleCalendar_Auth _ a)
  end.
Proof.
  intros H.
  destruct (GetCalendarProvider_cases account) as [[_ Hn] | [[Eg Hg] | [Ea Ha]]].
  - congruence.
  - destruct (models.GoogleCalendarAuth account) as [auth|]; [|congruence].
    rewrite Hg in H. injection H as <-. now split.
  - destruct (models.AppleCalendarAuth account) as [auth|]; [|congruence].
    rewrite Ha in H. injection H as <-. now split.
Qed.

End FactoryResults.

Lemma GetCalendarProvider_returned_inv_witness :
  models.CalendarType_of google_account = models.GoogleCalendarType
  /\ models.GoogleCalendarAuth google_account = Some "google-token".
Proof.
  apply (GetCalendarProvider_returned_inv google_account
           (calendar.GoogleProvider (calendar.mkGoogleCalendar "google-token"))).
  reflexivity.
Defined.

(* ------------------------------------------------------------------ *)
(** ** Hexadecimal ids *)

Lemma get_In (s : string) (i : nat) (c : ascii) :
  String.get i s = Some c -> In c (list_ascii_of_string s).
Proof.
  revert i. induction s as [|a s IH]; intros i; simpl; [discriminate|].
  destruct i as [|i]; intros H.
  - injection H as ->. now left.
  - right. eapply IH; eauto.
Qed.

Lemma hexdigit_in_table (n : N) :
  In (primitive.hexdigit n) (list_ascii_of_string primitive.hextable).
Proof.
  unfold primitive.hexdigit.
  destruct (String.get (N.to_nat n) primitive.hextable) as [c|] eqn:Hg.
  - eapply get_In; eauto.
  - simpl. now left.
Qed.

Lemma hexEncode_chars (src : list byte) :
  Forall (fun c => In c (list_ascii_of_string primitive.hextable))
         (list_ascii_of_string (primitive.hexEncode src)).
Proof.
  induction src as [|v rest IH]; simpl; [constructor|].
  constructor; [apply hexdigit_in_table|].
  constructor; [apply hexdigit_in_table | exact IH].
Qed.

(** Decoding the two digits that [hex.Encode] writes for a byte gives the
    byte back. *)
Lemma byte_digits (v : byte) :
  primitive.fromHexChar (primitive.hexdigit (N.shiftr (Byte.to_N v) 4))
  = Some (N.shiftr (Byte.to_N v) 4)
  /\ primitive.fromHexChar (primitive.hexdigit (N.land (Byte.to_N v) 15))
     = Some (N.land (Byte.to_N v) 15)
  /\ primitive.byteOfDigits (N.shiftr (Byte.to_N v) 4) (N.land (Byte.to_N v) 15) = v.
Proof. destruct v; repeat split; reflexivity. Qed.

Lemma hexDecode_hexEncode (src : list byte) :
  primitive.hexDecode (primitive.hexEncode src) = Some src.
Proof.
  induction src as [|v rest IH]; [reflexivity|].
  destruct (byte_digits v) as (Hhi & Hlo & Hv).
  cbn [primitive.hexEncode primitive.hexDecode].
  now rewrite Hhi, Hlo, IH, Hv.
Qed.

Lemma ObjectIDFromHex_Hex (id : primitive.ObjectID) :
  List.length id = 12%nat -> primitive.ObjectIDFromHex (primitive.Hex id) = Some id.
Proof.
  intros Hlen. unfold primitive.ObjectIDFromHex.
  rewrite (Hex_length id Hlen). simpl. apply hexDecode_hexEncode.
Qed.

Lemma hexEncode_injective (src1 src2 : list byte) :
  primitive.hexEncode src1 = primitive.hexEncode src2 -> src1 = src2.
Proof.
  intros H. apply (f_equal primitive.hexDecode) in H.
  rewrite !hexDecode_hexEncode in H. congruence.
Qed.

(** Two bytes per pair of characters: what decodes has an even length. *)
Lemma hexDecode_length (s : string) :
  (forall bytes, primitive.hexDecode s = Some bytes ->
                 String.length s = (2 * List.length bytes)%nat)
  /\ (forall c bytes, primitive.hexDecode (String c s) = Some bytes ->
                      String.length (String c s) = (2 * List.length bytes)%nat).
Proof.
  induction s as [|q rest [IH1 IH2]].
  - split.
    + intros bytes H. injection H as <-. reflexivity.
    + intros c bytes H. discriminate.
  - split.
    + intros bytes H. now apply IH2.
    + intros c bytes H. cbn [primitive.hexDecode] in H.
      destruct (primitive.fromHexChar c); [|discriminate].
      destruct (primitive.fromHexChar q); [|discriminate].
      destruct (primitive.hexDecode rest) as [bytes'|] eqn:Hd; [|discriminate].
      injection H as <-. specialize (IH1 bytes' eq_refl).
      cbn [String.length List.length]. lia.
Qed.

Lemma string_pair_ind (P : string -> Prop) :
  P EmptyString ->
  (forall c, P (String c EmptyString)) ->
  (forall p q rest, P rest -> P (String p (String q rest))) ->
  forall s, P s.
Proof.
  intros H0 H1 H2 s.
  assert (H : P s /\ forall c, P (String c s)); [|exact (proj1 H)].
  induction s as [|q rest [IHa IHb]]; split; auto.
Qed.

Lemma hexDecode_digits (s : string) (bytes : list byte) :
  primitive.hexDecode s = Some bytes ->
  Forall (fun c => primitive.fromHexChar c <> None) (list_ascii_of_string s).
Proof.
  revert bytes. induction s as [|c|p q rest IH] using string_pair_ind; intros bytes H.
  - constructor.
  - discriminate.
  - cbn [primitive.hexDecode] in H. cbn [list_ascii_of_string].
    destruct (primitive.fromHexChar p) eqn:Hp; [|discriminate].
    destruct (primitive.fromHexChar q) eqn:Hq; [|discriminate].
    destruct (primitive.hexDecode rest) as [bytes'|]; [|discriminate].
    repeat constructor; try congruence. now apply (IH bytes').
Qed.

Lemma hexDecode_total (s : string) :
  Nat.even (String.length s) = true ->
  Forall (fun c => primitive.fromHexChar c <> None) (list_ascii_of_string s) ->
  exists bytes, primitive.hexDecode s = Some bytes.
Proof.
  induction s as [|c|p q rest IH] using string_pair_ind; intros Hev Hd.
  - now exists [].
  - discriminate.
  - cbn [list_ascii_of_string] in Hd.
    inversion Hd as [|? ? Hp Hd']; subst. inversion Hd' as [|? ? Hq Hrest]; subst.
    destruct (IH Hev Hrest) as [bytes Hb].
    cbn [primitive.hexDecode].
    destruct (primitive.fromHexChar p) as [a|]; [|congruence].
    destruct (primitive.fromHexChar q) as [b|]; [|congruence].
    rewrite Hb. eauto.
Qed.

(* ------------------------------------------------------------------ *)
(** ** [GetId] without a short id *)

(** Without a short id, the id of an event with a 12-byte [Id] is made of
    24 characters, all of them digits or lower-case letters from [a] to
    [f], and [ObjectIDFromHex] reads [Id] back from it. *)
Theorem GetId_hex_form (e : models.Event) :
  models.ShortId e = None -> List.length (models.Id e) = 12%nat ->
  String.length (models.GetId e) = 24%nat
  /\ Forall (fun c => In c (list_ascii_of_string "0123456789abcdef"))
       (list_ascii_of_string (models.GetId e))
  /\ primitive.ObjectIDFromHex (models.GetId e) = Some (models.Id e).
Proof.
  intros Hs Hlen. unfold models.GetId. rewrite Hs.
  split; [now apply Hex_length|].
  split; [apply hexEncode_chars | now apply ObjectIDFromHex_Hex].
Qed.

Lemma GetId_hex_form_witness :
  String.length (models.GetId plain_event) = 24%nat
  /\ Forall (fun c => In c (list_ascii_of_string "0123456789abcdef"))
       (list_ascii_of_string (models.GetId plain_event))
  /\ primitive.ObjectIDFromHex (models.GetId plain_event) = Some (models.Id plain_event).
Proof.
  apply (GetId_hex_form plain_event); reflexivity.
Defined.

(** Two events without short ids have the same id only when they have the
    same [Id]. *)
Theorem GetId_injective (e1 e2 : models.Event) :
  models.ShortId e1 = None -> models.ShortId e2 = None ->
  models.GetId e1 = models.GetId e2 -> models.Id e1 = models.Id e2.
Proof.
  unfold models.GetId. intros -> ->. apply hexEncode_injective.
Qed.

Lemma GetId_injective_witness : models.Id plain_event = models.Id renamed_event.
Proof.
  apply (GetId_injective plain_event renamed_event); reflexivity.
Defined.

(* ------------------------------------------------------------------ *)
(** ** [GetUserId] *)

(** With the hexadecimal form of a 12-byte id under [userId], [GetUserId]
    returns that id. *)
Theorem GetUserId_round_trip (session : utils.Session) (id : primitive.ObjectID) :
  utils.Get session "userId" = Some (utils.anyString (primitive.Hex id)) ->
  List.length id = 12%nat ->
  utils.GetUserId session = Go.Returned id.
Proof.
  intros Hget Hlen. unfold utils.GetUserId.
  now rewrite Hget, (ObjectIDFromHex_Hex id Hlen).
Qed.

Lemma GetUserId_round_trip_witness :
  utils.GetUserId
    (utils.mkSession (fun _ => Some (utils.anyString (primitive.Hex sample_id))))
  = Go.Returned sample_id.
Proof.
  apply (GetUserId_round_trip
           (utils.mkSession (fun _ => Some (utils.anyString (primitive.Hex sample_id))))
           sample_id); reflexivity.
Defined.

(** [GetUserId] returns, and does not panic, exactly when the session holds
    under [userId] a string of 24 hexadecimal digits (of either case); the
    id it returns has 12 bytes. *)
Theorem GetUserId_returns_iff (session : utils.Session) :
  (exists id, utils.GetUserId session = Go.Returned id)
  <-> (exists s,
         utils.Get session "userId" = Some (utils.anyString s)
         /\ String.length s = 24%nat
         /\ Forall (fun c => primitive.fromHexChar c <> None) (list_ascii_of_string s)).
Proof.
  unfold utils.GetUserId, primitive.ObjectIDFromHex. split.
  - intros [id H].
    destruct (utils.Get session "userId") as [[s|]|]; try discriminate.
    destruct (Nat.eqb_spec (String.length s) 24) as [Hlen|_]; [|discriminate].
    destruct (primitive.hexDecode s) as [bytes|] eqn:Hd; [|discriminate].
    exists s. repeat split; auto. now apply (hexDecode_digits s bytes).
  - intros (s & -> & Hlen & Hd). rewrite Hlen. simpl.
    destruct (hexDecode_total s) as [bytes ->]; [now rewrite Hlen | exact Hd |].
    now exists bytes.
Qed.

(** An id that [GetUserId] returns has the 12 bytes of an [ObjectID]. *)
Theorem GetUserId_returns_12_bytes (session : utils.Session) (id : primitive.ObjectID) :
  utils.GetUserId session = Go.Returned id -> List.length id = 12%nat.
Proof.
  unfold utils.GetUserId, primitive.ObjectIDFromHex.
  destruct (utils.Get session "userId") as [[s|]|]; try discriminate.
  destruct (Nat.eqb_spec (String.length s) 24) as [Hlen|_]; [|discriminate].
  destruct (primitive.hexDecode s) as [bytes|] eqn:Hd; [|discriminate].
  intros H. injection H as <-.
  apply (proj1 (hexDecode_length s)) in Hd. lia.
Qed.

Lemma GetUserId_returns_12_bytes_witness : List.length sample_id = 12%nat.
Proof.
  apply (GetUserId_returns_12_bytes user_session sample_id). reflexivity.
Defined.

(* ------------------------------------------------------------------ *)
(** ** Events in milliseconds *)

(** An item that starts before it ends gives an event whose dates may
    coincide (both instants within one millisecond) and never cross. *)
Lemma formatResponse_start_le_end_witness :
  Forall (fun ev => models.StartDate ev <= models.EndDate ev)
         (Go.elements (formatResponse day_payload (Some [meeting; instant_item])))
  /\ models.StartDate (restructure instant_item) = models.EndDate (restructure instant_item).
Proof.
  split; [|reflexivity].
  apply (formatResponse_start_le_end day_payload (Some [meeting; instant_item])).
  repeat constructor; vm_compute; congruence.
Defined.

Lemma restructure_injective_witness : meeting = meeting.
Proof.
  apply (restructure_injective meeting meeting);
    repeat split; vm_compute; congruence.
Defined.
